(** * pydantic/decorators.py: the rule-declaration entry points

    A shallow embedding of [validator], [field_validator], [root_validator],
    [field_serializer], [model_serializer] and [model_validator], with the
    warnings they emit, the exceptions they raise and the markers their
    decorators build. *)

From Stdlib Require Import String List Bool ZArith.
Import ListNotations.
Open Scope string_scope.

(** ** Python values *)

(** The objects that reach the entry points: option values, target names,
    and the things a decorator is applied to.  A [PyFunction] is an instance
    of [types.FunctionType] (a [def] or a [lambda]) with its parameter names;
    a [PyBuiltin] is callable without being one. *)
Inductive PyObj : Type :=
| PyNone
| PyBool (b : bool)
| PyInt (z : Z)
| PyStr (s : string)
| PyFunction (name : string) (params : list string)
| PyBuiltin (name : string)
| PyStaticMethod (f : PyObj)
| PyClassMethod (f : PyObj).

(** [x is True], [x is False], [x is None]: identity with the singletons. *)
Definition is_True (x : PyObj) : bool :=
  match x with PyBool true => true | _ => false end.

Definition is_False (x : PyObj) : bool :=
  match x with PyBool false => true | _ => false end.

Definition is_None (x : PyObj) : bool :=
  match x with PyNone => true | _ => false end.

(** [isinstance(x, FunctionType)] *)
Definition isinstance_FunctionType (x : PyObj) : bool :=
  match x with PyFunction _ _ => true | _ => false end.

(** [isinstance(x, str)] *)
Definition isinstance_str (x : PyObj) : bool :=
  match x with PyStr _ => true | _ => false end.

(** [isinstance(x, (staticmethod, classmethod))] *)
Definition isinstance_staticmethod_classmethod (x : PyObj) : bool :=
  match x with PyStaticMethod _ | PyClassMethod _ => true | _ => false end.

(** [callable(x)] *)
Definition callable (x : PyObj) : bool :=
  match x with PyFunction _ _ | PyBuiltin _ => true | _ => false end.

(** ** Exceptions, warnings and the declaration-time state *)

Inductive Exn : Type :=
| PydanticUserError (message code : string)
| TypeError (message : string).

Definition exn_message (e : Exn) : string :=
  match e with
  | PydanticUserError m _ => m
  | TypeError m => m
  end.

(** The [code] of a [PydanticUserError]; other exceptions carry none. *)
Definition exn_code (e : Exn) : option string :=
  match e with
  | PydanticUserError _ c => Some c
  | TypeError _ => None
  end.

(** Whether an exception's message contains a phrase. *)
Definition says (e : Exn) (phrase : string) : bool :=
  match String.index 0 phrase (exn_message e) with
  | Some _ => true
  | None => false
  end.

Inductive WarningCategory : Type := DeprecationWarning.

Record Warning : Type := mkWarning
  { w_message : string; w_category : WarningCategory }.

(** What a declaration can change: the warnings issued so far (oldest
    first) and the identity the next constructed descriptor object gets. *)
Record State : Type := mkState
  { warnings : list Warning; next_id : nat }.

(** An object with an identity ([is]) and a value ([==]). *)
Record Obj (A : Type) : Type := mkObj { oid : nat; val : A }.
Arguments mkObj {A} _ _.
Arguments oid {A} _.
Arguments val {A} _.

Inductive Outcome (A : Type) : Type :=
| Return (a : A)
| Raise (e : Exn).
Arguments Return {A} _.
Arguments Raise {A} _.

(** Declarations run in a state-and-exception monad; the state survives a
    raise, so a warning issued before the failure stays issued. *)
Definition M (A : Type) : Type := State -> State * Outcome A.

Definition ret {A} (a : A) : M A := fun s => (s, Return a).

Definition raise {A} (e : Exn) : M A := fun s => (s, Raise e).

Definition bind {A B} (c : M A) (k : A -> M B) : M B :=
  fun s =>
    match c s with
    | (s', Return a) => k a s'
    | (s', Raise e) => (s', Raise e)
    end.

Notation "x <- c ;; k" := (bind c (fun x => k))
  (at level 61, c at next level, right associativity).
Notation "c ;; k" := (bind c (fun _ => k))
  (at level 61, right associativity).

(** [warnings.warn(message, category)] under the default filters. *)
Definition warn (message : string) (category : WarningCategory) : M unit :=
  fun s => (mkState (warnings s ++ [mkWarning message category]) (next_id s), Return tt).

(** Calling a class: a fresh object holding the given value. *)
Definition construct {A} (a : A) : M (Obj A) :=
  fun s => (mkState (warnings s) (S (next_id s)), Return (mkObj (next_id s) a)).

Definition when (b : bool) (c : M unit) : M unit :=
  if b then c else ret tt.

(** ** Descriptors, shims and markers *)

(** Modelled from the spec: the descriptor classes of [_internal/_decorators.py]
    (not part of the sources at hand), as immutable records compared by value,
    one constructor per class with the keyword arguments the entry points pass. *)
Inductive DecoratorInfo : Type :=
| ValidatorDecoratorInfo (fields : list PyObj) (mode each_item always check_fields : PyObj)
| FieldValidatorDecoratorInfo (fields : list PyObj) (mode check_fields : PyObj)
| RootValidatorDecoratorInfo (mode : PyObj)
| FieldSerializerDecoratorInfo (fields : list PyObj)
    (mode type json_return_type when_used check_fields : PyObj)
| ModelSerializerDecoratorInfo (mode json_return_type : PyObj)
| ModelValidatorDecoratorInfo (mode : PyObj).

Definition info_mode (d : DecoratorInfo) : PyObj :=
  match d with
  | ValidatorDecoratorInfo _ m _ _ _ => m
  | FieldValidatorDecoratorInfo _ m _ => m
  | RootValidatorDecoratorInfo m => m
  | FieldSerializerDecoratorInfo _ m _ _ _ _ => m
  | ModelSerializerDecoratorInfo m _ => m
  | ModelValidatorDecoratorInfo m => m
  end.

(** The shim handed to the marker: a function of [_decorators] by name,
    bare or under [functools.partial] with keyword arguments. *)
Inductive Shim : Type :=
| shim_function (name : string)
| partial (name : string) (kwargs : list (string * PyObj)).

(** Modelled from the spec: [_decorators.PydanticDecoratorMarker], which keeps
    the three things it is constructed with. *)
Record PydanticDecoratorMarker : Type := mkMarker
  { wrapped : PyObj;
    decorator_info : Obj DecoratorInfo;
    shim : Shim }.

Definition Decorator : Type := PyObj -> M PydanticDecoratorMarker.

Definition _ALLOW_REUSE_WARNING_MESSAGE : string :=
  "`allow_reuse` is deprecated and will be ignored; it should no longer be necessary".

Definition V1_VALIDATOR_WARNING_MESSAGE : string :=
  "Pydantic V1 style `@validator` validators are deprecated."
  ++ " You should migrate to Pydantic V2 style `@field_validator` validators,"
  ++ " see the migration guide for more details".

(** [all(isinstance(field, str) for field in fields)] *)
Definition all_str (fields : list PyObj) : bool := forallb isinstance_str fields.

(** ['before' if pre is True else 'after'] *)
Definition legacy_mode (pre : PyObj) : PyObj :=
  if is_True pre then PyStr "before" else PyStr "after".

(** ** The entry points *)

Section Decorators.

(** The two helpers of [_internal/_decorators.py] the entry points call on
    the decorated object; the sources at hand do not include them, so the
    entry points are taken over any classifier and any wrapper. *)
Variable is_instance_method_from_sig : PyObj -> bool.
Variable ensure_classmethod_based_on_signature : PyObj -> PyObj.

(** The inner [dec] of [validator], closed over [fields], [mode],
    [each_item], [always] and [check_fields]. *)
Definition validator_dec (fields : list PyObj) (mode each_item always check_fields : PyObj)
  : Decorator :=
  fun f =>
    if is_instance_method_from_sig f then
      raise (PydanticUserError "`@validator` cannot be applied to instance methods"
                               "validator-instance-method")
    else
      let f := ensure_classmethod_based_on_signature f in
      let wrap := shim_function "make_generic_v1_field_validator" in
      validator_wrapper_info <-
        construct (ValidatorDecoratorInfo fields mode each_item always check_fields) ;;
      ret (mkMarker f validator_wrapper_info wrap).

Definition validator (__field : PyObj) (fields : list PyObj)
    (pre each_item always check_fields allow_reuse : PyObj) : M Decorator :=
  when (is_True allow_reuse) (warn _ALLOW_REUSE_WARNING_MESSAGE DeprecationWarning) ;;
  let fields := __field :: fields in
  if isinstance_FunctionType (hd PyNone fields) then
    raise (PydanticUserError
             ("validators should be used with fields and keyword arguments, not bare. "
              ++ "E.g. usage should be `@validator('<field_name>', ...)`")
             "validator-no-fields")
  else if negb (all_str fields) then
    raise (PydanticUserError
             ("validator fields should be passed as separate string args. "
              ++ "E.g. usage should be `@validator('<field_name_1>', '<field_name_2>', ...)`")
             "validator-invalid-fields")
  else
    warn V1_VALIDATOR_WARNING_MESSAGE DeprecationWarning ;;
    let mode := legacy_mode pre in
    ret (validator_dec fields mode each_item always check_fields).

(** The inner [dec] of [field_validator]. *)
Definition field_validator_dec (fields : list PyObj) (mode check_fields : PyObj)
  : Decorator :=
  fun f =>
    if is_instance_method_from_sig f then
      raise (PydanticUserError "`@field_validator` cannot be applied to instance methods"
                               "validator-instance-method")
    else
      let f := ensure_classmethod_based_on_signature f in
      let wrap := partial "make_generic_validator" [("mode", mode)] in
      validator_wrapper_info <-
        construct (FieldValidatorDecoratorInfo fields mode check_fields) ;;
      ret (mkMarker f validator_wrapper_info wrap).

Definition field_validator (__field : PyObj) (fields : list PyObj)
    (mode check_fields : PyObj) : M Decorator :=
  let fields := __field :: fields in
  if isinstance_FunctionType (hd PyNone fields) then
    raise (PydanticUserError
             ("field_validators should be used with fields and keyword arguments, not bare. "
              ++ "E.g. usage should be `@validator('<field_name>', ...)`")
             "validator-no-fields")
  else if negb (all_str fields) then
    raise (PydanticUserError
             ("field_validator fields should be passed as separate string args. "
              ++ "E.g. usage should be `@validator('<field_name_1>', '<field_name_2>', ...)`")
             "validator-invalid-fields")
  else
    ret (field_validator_dec fields mode check_fields).

(** The inner [dec] of [root_validator], closed over [mode] and [wrap]. *)
Definition root_validator_dec (mode : PyObj) (wrap : Shim) : Decorator :=
  fun f =>
    if is_instance_method_from_sig f then
      raise (TypeError "`@root_validator` cannot be applied to instance methods")
    else
      let res := ensure_classmethod_based_on_signature f in
      validator_wrapper_info <- construct (RootValidatorDecoratorInfo mode) ;;
      ret (mkMarker res validator_wrapper_info wrap).

Definition root_validator (pre skip_on_failure allow_reuse : PyObj) : M Decorator :=
  when (is_True allow_reuse) (warn _ALLOW_REUSE_WARNING_MESSAGE DeprecationWarning) ;;
  let mode := legacy_mode pre in
  if is_False pre && negb (is_True skip_on_failure) then
    raise (PydanticUserError
             "If you use `@root_validator` with pre=False (the default) you MUST specify `skip_on_failure=True`."
             "root-validator-pre-skip")
  else
    let wrap := partial "make_v1_generic_root_validator" [("pre", pre)] in
    ret (root_validator_dec mode wrap).

(** ['field' if is_instance_method_from_sig(f) else 'general'] *)
Definition serializer_type (f : PyObj) : PyObj :=
  if is_instance_method_from_sig f then PyStr "field" else PyStr "general".

(** The inner [dec] of [field_serializer]. *)
Definition field_serializer_dec (fields : list PyObj)
    (mode json_return_type when_used check_fields : PyObj) : Decorator :=
  fun f =>
    let type_ := serializer_type f in
    dec_info <-
      construct (FieldSerializerDecoratorInfo fields mode type_ json_return_type
                                              when_used check_fields) ;;
    ret (mkMarker f dec_info
           (partial "make_generic_serializer" [("mode", mode); ("type", type_)])).

Definition field_serializer (fields : list PyObj)
    (mode json_return_type when_used check_fields : PyObj) : M Decorator :=
  ret (field_serializer_dec fields mode json_return_type when_used check_fields).

(** The inner [dec] of [model_serializer]. *)
Definition model_serializer_dec (mode json_return_type : PyObj) : Decorator :=
  fun f =>
    if isinstance_staticmethod_classmethod f || negb (is_instance_method_from_sig f) then
      raise (PydanticUserError "`@model_serializer` must be applied to instance methods"
                               "model-serializer-instance-method")
    else
      dec_info <- construct (ModelSerializerDecoratorInfo mode json_return_type) ;;
      ret (mkMarker f dec_info (partial "make_generic_model_serializer" [("mode", mode)])).

(** [model_serializer] returns the decorator when [__f] is None and the
    marker of [dec(__f)] otherwise. *)
Definition model_serializer (__f : PyObj) (mode json_return_type : PyObj)
  : M (Decorator + PydanticDecoratorMarker) :=
  let dec := model_serializer_dec mode json_return_type in
  if is_None __f then ret (inl dec)
  else m <- dec __f ;; ret (inr m).

(** The inner [dec] of [model_validator]. *)
Definition model_validator_dec (mode : PyObj) : Decorator :=
  fun f =>
    dec_info <- construct (ModelValidatorDecoratorInfo mode) ;;
    let shim := partial "make_generic_validator" [("mode", mode)] in
    ret (mkMarker f dec_info shim).

Definition model_validator (mode : PyObj) : M Decorator :=
  ret (model_validator_dec mode).

(** A declaration as an author writes it: call the entry point, then apply
    what it returns to the function. *)
Definition declare (entry : M Decorator) (f : PyObj) : M PydanticDecoratorMarker :=
  dec <- entry ;; dec f.

(** The same declaration made twice in a row. *)
Definition declare_twice (entry : M Decorator) (f : PyObj)
  : M (PydanticDecoratorMarker * PydanticDecoratorMarker) :=
  m1 <- declare entry f ;;
  m2 <- declare entry f ;;
  ret (m1, m2).

End Decorators.

(** Option defaults of the signatures. *)
Definition default_False : PyObj := PyBool false.
Definition default_None : PyObj := PyNone.

(** A state before any declaration. *)
Definition initial_state : State := mkState [] 0.

(** Whether a run ended in an exception. *)
Definition raised {A} (r : State * Outcome A) : bool :=
  match snd r with Raise _ => true | Return _ => false end.

(** ** A concrete classifier *)

(** Modelled from the spec: the signature test of [_internal/_decorators.py],
    which looks through classmethod and staticmethod wrappers and takes a
    function for instance-bound when its first parameter is [self]. *)
Fixpoint unwrap_wrapped_function (f : PyObj) : PyObj :=
  match f with
  | PyStaticMethod g | PyClassMethod g => unwrap_wrapped_function g
  | _ => f
  end.

Definition sig_is_instance_method (f : PyObj) : bool :=
  match unwrap_wrapped_function f with
  | PyFunction _ (p :: _) => String.eqb p "self"
  | _ => false
  end.

(** Modelled from the spec: a function that is neither a class or static
    method already nor instance-bound is wrapped as a classmethod. *)
Definition sig_ensure_classmethod (f : PyObj) : PyObj :=
  if isinstance_staticmethod_classmethod f then f
  else if sig_is_instance_method f then f
  else PyClassMethod f.

(** Sample decorated functions. *)
Definition f_cls_value : PyObj := PyFunction "check" ["cls"; "value"].
Definition f_self_value : PyObj := PyFunction "ser" ["self"; "value"].
Definition f_self : PyObj := PyFunction "dump" ["self"].

(** ** Reading markers *)

(** The targets a descriptor lists; model-level descriptors have none. *)
Definition info_fields (d : DecoratorInfo) : option (list PyObj) :=
  match d with
  | ValidatorDecoratorInfo fs _ _ _ _ => Some fs
  | FieldValidatorDecoratorInfo fs _ _ => Some fs
  | FieldSerializerDecoratorInfo fs _ _ _ _ _ => Some fs
  | RootValidatorDecoratorInfo _ | ModelSerializerDecoratorInfo _ _
  | ModelValidatorDecoratorInfo _ => None
  end.

(** The [check_fields] a field-level descriptor holds. *)
Definition info_check_fields (d : DecoratorInfo) : option PyObj :=
  match d with
  | ValidatorDecoratorInfo _ _ _ _ c => Some c
  | FieldValidatorDecoratorInfo _ _ c => Some c
  | FieldSerializerDecoratorInfo _ _ _ _ _ c => Some c
  | RootValidatorDecoratorInfo _ | ModelSerializerDecoratorInfo _ _
  | ModelValidatorDecoratorInfo _ => None
  end.

(** The [type] a field-serializer descriptor holds. *)
Definition info_type (d : DecoratorInfo) : option PyObj :=
  match d with
  | FieldSerializerDecoratorInfo _ _ t _ _ _ => Some t
  | _ => None
  end.

(** The value bound to a keyword in a keyword-argument list. *)
Fixpoint lookup_kwarg (k : string) (kwargs : list (string * PyObj)) : option PyObj :=
  match kwargs with
  | [] => None
  | (k', v) :: rest => if String.eqb k k' then Some v else lookup_kwarg k rest
  end.

(** The function a shim calls, and the keyword it fixes, if any. *)
Definition shim_name (sh : Shim) : string :=
  match sh with
  | shim_function n => n
  | partial n _ => n
  end.

Definition shim_kwarg (k : string) (sh : Shim) : option PyObj :=
  match sh with
  | shim_function _ => None
  | partial _ kwargs => lookup_kwarg k kwargs
  end.

(** A property of the marker a run returned; a run that raised returned none. *)
Definition on_marker (P : PydanticDecoratorMarker -> Prop)
    (r : State * Outcome PydanticDecoratorMarker) : Prop :=
  match snd r with
  | Return m => P m
  | Raise _ => True
  end.

(** ** Properties of the entry points *)

Ltac run :=
  unfold declare_twice, declare, validator, field_validator, root_validator,
    field_serializer, model_serializer, model_validator,
    validator_dec, field_validator_dec, root_validator_dec, field_serializer_dec,
    model_serializer_dec, model_validator_dec, serializer_type,
    when, warn, construct, bind, ret, raise, raised in *;
  cbn [fst snd hd warnings next_id] in *.

Lemma all_str_head (x : PyObj) (xs : list PyObj) :
  all_str (x :: xs) = true -> isinstance_FunctionType x = false.
Proof.
  unfold all_str; cbn [forallb]; intros H.
  apply andb_true_iff in H as [H _].
  destruct x; simpl in *; congruence.
Qed.

Lemma callable_not_str (x : PyObj) (xs : list PyObj) :
  callable x = true -> all_str (x :: xs) = false.
Proof.
  unfold all_str; cbn [forallb]; intros H.
  destruct x; simpl in *; congruence.
Qed.

Lemma legacy_mode_before (pre : PyObj) :
  legacy_mode pre = PyStr "before" <-> pre = PyBool true.
Proof.
  unfold legacy_mode; split.
  - destruct pre as [| [|] | | | | | |]; simpl; intros H; try discriminate; reflexivity.
  - intros ->; reflexivity.
Qed.

Lemma legacy_mode_after (pre : PyObj) :
  pre <> PyBool true -> legacy_mode pre = PyStr "after".
Proof.
  unfold legacy_mode.
  destruct pre as [| [|] | | | | | |]; simpl; intros H; try reflexivity.
  now contradict H.
Qed.

Section Properties.

Variable is_instance_method_from_sig : PyObj -> bool.
Variable ensure_classmethod_based_on_signature : PyObj -> PyObj.

Local Abbreviation validator' :=
  (validator is_instance_method_from_sig ensure_classmethod_based_on_signature).
Local Abbreviation field_validator' :=
  (field_validator is_instance_method_from_sig ensure_classmethod_based_on_signature).
Local Abbreviation root_validator' :=
  (root_validator is_instance_method_from_sig ensure_classmethod_based_on_signature).
Local Abbreviation field_serializer' := (field_serializer is_instance_method_from_sig).
Local Abbreviation model_serializer' := (model_serializer is_instance_method_from_sig).
Local Abbreviation root_validator_dec' :=
  (root_validator_dec is_instance_method_from_sig ensure_classmethod_based_on_signature).

(** C1. [root_validator] with [pre=False] and a [skip_on_failure] that is not
    True raises the pre-skip declaration error, with no descriptor
    constructed; with [pre=False] and [skip_on_failure=True] it returns its
    decorator; with [pre=True] it returns its decorator whatever
    [skip_on_failure] is; and the decorator returned builds a marker from a
    function that is not instance-bound. *)
Theorem root_validator_skip_gate
    (skip_on_failure allow_reuse f : PyObj) (s t : State)
    (Hskip : is_True skip_on_failure = false)
    (Hf : is_instance_method_from_sig f = false) :
  (exists s',
      root_validator' (PyBool false) skip_on_failure allow_reuse s
      = (s', Raise (PydanticUserError
           "If you use `@root_validator` with pre=False (the default) you MUST specify `skip_on_failure=True`."
           "root-validator-pre-skip"))
      /\ next_id s' = next_id s)
  /\ (exists s',
      root_validator' (PyBool false) (PyBool true) allow_reuse s
      = (s', Return (root_validator_dec' (PyStr "after")
                       (partial "make_v1_generic_root_validator" [("pre", PyBool false)]))))
  /\ (forall skip, exists s',
      root_validator' (PyBool true) skip allow_reuse s
      = (s', Return (root_validator_dec' (PyStr "before")
                       (partial "make_v1_generic_root_validator" [("pre", PyBool true)]))))
  /\ (forall mode wrap,
      root_validator_dec' mode wrap f t
      = (mkState (warnings t) (S (next_id t)),
         Return (mkMarker (ensure_classmethod_based_on_signature f)
                          (mkObj (next_id t) (RootValidatorDecoratorInfo mode)) wrap))).
Proof.
  repeat split.
  - run. rewrite Hskip. destruct (is_True allow_reuse); simpl; eexists; split; reflexivity.
  - run. destruct (is_True allow_reuse); simpl; eexists; reflexivity.
  - intros skip. run. destruct (is_True allow_reuse); simpl; eexists; reflexivity.
  - intros mode wrap. run. rewrite Hf. reflexivity.
Qed.

Lemma validator_bad_targets (__field : PyObj) (fields : list PyObj)
    (pre each_item always check_fields allow_reuse : PyObj) (s : State) :
  all_str (__field :: fields) = false ->
  exists s' e,
    validator' __field fields pre each_item always check_fields allow_reuse s = (s', Raise e)
    /\ exn_code e = Some (if isinstance_FunctionType __field
                          then "validator-no-fields" else "validator-invalid-fields")
    /\ next_id s' = next_id s.
Proof.
  intros H. run. rewrite H.
  destruct (is_True allow_reuse), (isinstance_FunctionType __field);
    simpl; do 2 eexists; repeat split.
Qed.

Lemma field_validator_bad_targets (__field : PyObj) (fields : list PyObj)
    (mode check_fields : PyObj) (s : State) :
  all_str (__field :: fields) = false ->
  exists s' e,
    field_validator' __field fields mode check_fields s = (s', Raise e)
    /\ exn_code e = Some (if isinstance_FunctionType __field
                          then "validator-no-fields" else "validator-invalid-fields")
    /\ next_id s' = next_id s.
Proof.
  intros H. run. rewrite H.
  destruct (isinstance_FunctionType __field); simpl; do 2 eexists; repeat split.
Qed.

Lemma field_serializer_declare (fields : list PyObj)
    (mode json_return_type when_used check_fields f : PyObj) (s : State) :
  declare (field_serializer' fields mode json_return_type when_used check_fields) f s
  = (mkState (warnings s) (S (next_id s)),
     Return (mkMarker f
               (mkObj (next_id s)
                  (FieldSerializerDecoratorInfo fields mode
                     (if is_instance_method_from_sig f then PyStr "field" else PyStr "general")
                     json_return_type when_used check_fields))
               (partial "make_generic_serializer"
                  [("mode", mode);
                   ("type", if is_instance_method_from_sig f
                            then PyStr "field" else PyStr "general")]))).
Proof. reflexivity. Qed.

(** C2 (amended). [validator] and [field_validator] raise a malformed-target
    declaration error, constructing no descriptor, when the first target is
    callable or any target is not a string: code [validator-no-fields] for a
    function in first place, [validator-invalid-fields] otherwise.
    [field_serializer] validates no target: with any targets it returns its
    decorator, and the marker built records the targets as given. *)
Theorem target_validation (__field : PyObj) (fields : list PyObj)
    (pre each_item always check_fields allow_reuse mode : PyObj) (s : State)
    (Hbad : callable __field = true \/ all_str (__field :: fields) = false) :
  (exists s' e,
      validator' __field fields pre each_item always check_fields allow_reuse s
      = (s', Raise e)
      /\ exn_code e = Some (if isinstance_FunctionType __field
                            then "validator-no-fields" else "validator-invalid-fields")
      /\ next_id s' = next_id s)
  /\ (exists s' e,
      field_validator' __field fields mode check_fields s = (s', Raise e)
      /\ exn_code e = Some (if isinstance_FunctionType __field
                            then "validator-no-fields" else "validator-invalid-fields")
      /\ next_id s' = next_id s)
  /\ (forall targets json_return_type when_used f,
      exists s' m,
        declare (field_serializer' targets mode json_return_type when_used check_fields) f s
        = (s', Return m)
        /\ wrapped m = f
        /\ val (decorator_info m)
           = FieldSerializerDecoratorInfo targets mode
               (if is_instance_method_from_sig f then PyStr "field" else PyStr "general")
               json_return_type when_used check_fields).
Proof.
  assert (H : all_str (__field :: fields) = false).
  { destruct Hbad as [Hc | Hn]; [now apply callable_not_str | exact Hn]. }
  split; [now apply validator_bad_targets |].
  split; [now apply field_validator_bad_targets |].
  intros targets jrt wu f.
  rewrite field_serializer_declare.
  do 2 eexists; repeat split.
Qed.

(** C3. Applied to a function classified as instance-bound, the decorators
    returned by [validator], [field_validator] and [root_validator] raise an
    error saying they cannot be applied to instance methods (a
    PydanticUserError for the first two, a TypeError for the third) and
    construct no descriptor; applied to a function not so classified they
    return a marker. *)
Theorem instance_method_rejected (__field : PyObj) (fields : list PyObj)
    (pre each_item always check_fields allow_reuse mode skip_on_failure f g : PyObj)
    (s : State)
    (Hfields : all_str (__field :: fields) = true)
    (Hgate : is_False pre && negb (is_True skip_on_failure) = false)
    (Hf : is_instance_method_from_sig f = true)
    (Hg : is_instance_method_from_sig g = false) :
  let phrase := "cannot be applied to instance methods" in
  (exists s' e,
      declare (validator' __field fields pre each_item always check_fields allow_reuse) f s
      = (s', Raise e)
      /\ e = PydanticUserError "`@validator` cannot be applied to instance methods"
                               "validator-instance-method"
      /\ says e phrase = true /\ next_id s' = next_id s)
  /\ (exists s' e,
      declare (field_validator' __field fields mode check_fields) f s = (s', Raise e)
      /\ e = PydanticUserError "`@field_validator` cannot be applied to instance methods"
                               "validator-instance-method"
      /\ says e phrase = true /\ next_id s' = next_id s)
  /\ (exists s' e,
      declare (root_validator' pre skip_on_failure allow_reuse) f s = (s', Raise e)
      /\ e = TypeError "`@root_validator` cannot be applied to instance methods"
      /\ says e phrase = true /\ next_id s' = next_id s)
  /\ (exists s' m,
      declare (validator' __field fields pre each_item always check_fields allow_reuse) g s
      = (s', Return m))
  /\ (exists s' m,
      declare (field_validator' __field fields mode check_fields) g s = (s', Return m))
  /\ (exists s' m,
      declare (root_validator' pre skip_on_failure allow_reuse) g s = (s', Return m)).
Proof.
  intros phrase. pose proof (all_str_head _ _ Hfields) as Hhd.
  repeat apply conj; run; rewrite ?Hhd, ?Hfields, ?Hgate; cbn [negb];
    destruct (is_True allow_reuse); cbn [fst snd];
    rewrite ?Hf, ?Hg; do 2 eexists; repeat split; reflexivity.
Qed.

Local Abbreviation model_serializer_dec' := (model_serializer_dec is_instance_method_from_sig).
Local Abbreviation model_validator' := model_validator.

(** C4. The decorator of [model_serializer] raises the must-be-applied-to-
    instance-methods declaration error on a staticmethod or classmethod
    wrapper and on anything not classified as instance-bound, constructing no
    descriptor; on an instance-bound object that is no such wrapper it returns
    a marker holding the function, the descriptor and the shim.  The same
    holds when the function is passed to [model_serializer] directly. *)
Theorem model_serializer_binding (mode json_return_type f g : PyObj) (s : State)
    (Hf : isinstance_staticmethod_classmethod f = true
          \/ is_instance_method_from_sig f = false)
    (Hg1 : isinstance_staticmethod_classmethod g = false)
    (Hg2 : is_instance_method_from_sig g = true) :
  let err := PydanticUserError "`@model_serializer` must be applied to instance methods"
                               "model-serializer-instance-method" in
  let marker := mkMarker g (mkObj (next_id s) (ModelSerializerDecoratorInfo mode json_return_type))
                  (partial "make_generic_model_serializer" [("mode", mode)]) in
  model_serializer_dec' mode json_return_type f s = (s, Raise err)
  /\ says err "must be applied to instance methods" = true
  /\ (is_None f = false -> model_serializer' f mode json_return_type s = (s, Raise err))
  /\ model_serializer_dec' mode json_return_type g s
     = (mkState (warnings s) (S (next_id s)), Return marker)
  /\ (is_None g = false ->
      model_serializer' g mode json_return_type s
      = (mkState (warnings s) (S (next_id s)), Return (inr marker))).
Proof.
  intros err marker.
  assert (Hraise : model_serializer_dec' mode json_return_type f s = (s, Raise err)).
  { run. destruct Hf as [H | H]; rewrite H; [reflexivity | now rewrite orb_true_r]. }
  assert (Hret : model_serializer_dec' mode json_return_type g s
                 = (mkState (warnings s) (S (next_id s)), Return marker)).
  { run. rewrite Hg1, Hg2. reflexivity. }
  repeat apply conj; try assumption; try reflexivity.
  - intros Hn. unfold model_serializer. rewrite Hn. unfold bind. now rewrite Hraise.
  - intros Hn. unfold model_serializer. rewrite Hn. unfold bind. now rewrite Hret.
Qed.

(** C5. Declaring twice in a row with the same targets, mode and options and
    the same function gives two markers whose descriptors are equal by value
    and are two distinct objects; so for [field_validator] and [validator],
    on string targets and a function not instance-bound, and for
    [field_serializer] on any targets and any function, instance-bound or
    not, the type recorded being the one its classification gives. *)
Theorem descriptor_construction_idempotent (__field : PyObj) (fields : list PyObj)
    (pre each_item always check_fields allow_reuse mode json_return_type when_used f : PyObj)
    (s : State)
    (Hfields : all_str (__field :: fields) = true)
    (Hf : is_instance_method_from_sig f = false) :
  (exists s' m1 m2,
      declare_twice (field_validator' __field fields mode check_fields) f s
      = (s', Return (m1, m2))
      /\ val (decorator_info m1) = val (decorator_info m2)
      /\ val (decorator_info m1)
         = FieldValidatorDecoratorInfo (__field :: fields) mode check_fields
      /\ oid (decorator_info m1) <> oid (decorator_info m2))
  /\ (exists s' m1 m2,
      declare_twice (validator' __field fields pre each_item always check_fields allow_reuse) f s
      = (s', Return (m1, m2))
      /\ val (decorator_info m1) = val (decorator_info m2)
      /\ val (decorator_info m1)
         = ValidatorDecoratorInfo (__field :: fields) (legacy_mode pre)
             each_item always check_fields
      /\ oid (decorator_info m1) <> oid (decorator_info m2))
  /\ (forall (targets : list PyObj) (g : PyObj), exists s' m1 m2,
      declare_twice
        (field_serializer' targets mode json_return_type when_used check_fields) g s
      = (s', Return (m1, m2))
      /\ val (decorator_info m1) = val (decorator_info m2)
      /\ val (decorator_info m1)
         = FieldSerializerDecoratorInfo targets mode
             (if is_instance_method_from_sig g then PyStr "field" else PyStr "general")
             json_return_type when_used check_fields
      /\ oid (decorator_info m1) <> oid (decorator_info m2)
      /\ wrapped m1 = g /\ wrapped m2 = g /\ shim m1 = shim m2).
Proof.
  pose proof (all_str_head _ _ Hfields) as Hhd.
  repeat apply conj; try intros targets g; run; rewrite ?Hhd, ?Hfields; cbn [negb];
    try destruct (is_True allow_reuse); cbn [fst snd];
    rewrite ?Hf; cbn [fst snd next_id warnings];
    do 3 eexists; (split; [reflexivity |]); cbn; repeat apply conj;
    try reflexivity; apply n_Sn.
Qed.

(** C6. A marker declared through [validator] or [root_validator] records
    mode ['before'] exactly when [pre] is True and ['after'] otherwise, and
    such a marker is produced for string targets, an admissible
    [skip_on_failure] and a function not instance-bound.  [validator('name')]
    with the default options issues the V1 deprecation warning and nothing
    else, returns its decorator, and that decorator records mode ['after']. *)
Theorem legacy_mode_resolution (__field : PyObj) (fields : list PyObj)
    (pre each_item always check_fields allow_reuse skip_on_failure f : PyObj) (s : State)
    (Hfields : all_str (__field :: fields) = true)
    (Hgate : is_False pre && negb (is_True skip_on_failure) = false)
    (Hf : is_instance_method_from_sig f = false) :
  let recorded := if is_True pre then PyStr "before" else PyStr "after" in
  (exists s' m,
      declare (validator' __field fields pre each_item always check_fields allow_reuse) f s
      = (s', Return m)
      /\ info_mode (val (decorator_info m)) = recorded)
  /\ (exists s' m,
      declare (root_validator' pre skip_on_failure allow_reuse) f s = (s', Return m)
      /\ info_mode (val (decorator_info m)) = recorded)
  /\ (recorded = PyStr "before" <-> pre = PyBool true)
  /\ (pre <> PyBool true -> recorded = PyStr "after")
  /\ validator' (PyStr "name") [] default_False default_False default_False
       default_None default_False s
     = (mkState
          (warnings s ++ [mkWarning V1_VALIDATOR_WARNING_MESSAGE DeprecationWarning])%list
          (next_id s),
        Return (validator_dec is_instance_method_from_sig
                  ensure_classmethod_based_on_signature
                  [PyStr "name"] (PyStr "after") default_False default_False default_None))
  /\ (exists s' m,
      declare (validator' (PyStr "name") [] default_False default_False default_False
                 default_None default_False) f s
      = (s', Return m)
      /\ info_mode (val (decorator_info m)) = PyStr "after"
      /\ warnings s'
         = (warnings s ++ [mkWarning V1_VALIDATOR_WARNING_MESSAGE DeprecationWarning])%list).
Proof.
  intros recorded. pose proof (all_str_head _ _ Hfields) as Hhd.
  repeat apply conj.
  - run. rewrite Hhd, Hfields. cbn [negb].
    destruct (is_True allow_reuse); cbn [fst snd]; rewrite Hf;
      do 2 eexists; split; reflexivity.
  - run. rewrite Hgate.
    destruct (is_True allow_reuse); cbn [fst snd]; rewrite Hf;
      do 2 eexists; split; reflexivity.
  - apply legacy_mode_before.
  - apply legacy_mode_before.
  - apply legacy_mode_after.
  - reflexivity.
  - run. cbn. rewrite Hf. do 2 eexists. repeat split.
Qed.

(** C7 (amended). [field_serializer] rejects nothing: applied to a function
    classified as instance-bound its decorator returns a marker, keeping the
    function as it is and recording type ['field'] in the descriptor and in
    the shim; a function not so classified gets type ['general']. *)
Theorem field_serializer_instance_method (fields : list PyObj)
    (mode json_return_type when_used check_fields f g : PyObj) (s : State)
    (Hf : is_instance_method_from_sig f = true)
    (Hg : is_instance_method_from_sig g = false) :
  declare (field_serializer' fields mode json_return_type when_used check_fields) f s
  = (mkState (warnings s) (S (next_id s)),
     Return (mkMarker f
               (mkObj (next_id s)
                  (FieldSerializerDecoratorInfo fields mode (PyStr "field")
                     json_return_type when_used check_fields))
               (partial "make_generic_serializer"
                  [("mode", mode); ("type", PyStr "field")])))
  /\ declare (field_serializer' fields mode json_return_type when_used check_fields) g s
     = (mkState (warnings s) (S (next_id s)),
        Return (mkMarker g
                  (mkObj (next_id s)
                     (FieldSerializerDecoratorInfo fields mode (PyStr "general")
                        json_return_type when_used check_fields))
                  (partial "make_generic_serializer"
                     [("mode", mode); ("type", PyStr "general")]))).
Proof.
  rewrite !field_serializer_declare, Hf, Hg. split; reflexivity.
Qed.

(** C8 (amended). [model_validator] checks no binding at declaration: for
    every mode, ['after'] included, and every function, instance-bound or
    not, its decorator returns a marker holding the function unchanged, a
    descriptor with that mode and the generic-validator shim for that mode. *)
Theorem model_validator_no_binding_check (mode f : PyObj) (s : State) :
  declare (model_validator' mode) f s
  = (mkState (warnings s) (S (next_id s)),
     Return (mkMarker f (mkObj (next_id s) (ModelValidatorDecoratorInfo mode))
               (partial "make_generic_validator" [("mode", mode)]))).
Proof. reflexivity. Qed.

(** C9. With [allow_reuse=True], [validator] and [root_validator] issue the
    allow-reuse deprecation warning first and otherwise do what they do with
    [allow_reuse] left out: the same outcome of the call (the same decorator
    or the same error), the same outcome of the declaration for every
    function (the same marker or the same error), the same later warnings. *)
Theorem allow_reuse_only_warns (__field : PyObj) (fields : list PyObj)
    (pre each_item always check_fields skip_on_failure : PyObj) (s : State) :
  let notice := mkWarning _ALLOW_REUSE_WARNING_MESSAGE DeprecationWarning in
  let same {A} (supplied omitted : State * Outcome A) :=
    snd supplied = snd omitted
    /\ next_id (fst supplied) = next_id (fst omitted)
    /\ exists later,
         warnings (fst omitted) = (warnings s ++ later)%list
         /\ warnings (fst supplied) = (warnings s ++ notice :: later)%list in
  same (validator' __field fields pre each_item always check_fields (PyBool true) s)
       (validator' __field fields pre each_item always check_fields default_False s)
  /\ same (root_validator' pre skip_on_failure (PyBool true) s)
          (root_validator' pre skip_on_failure default_False s)
  /\ (forall f,
       same (declare (validator' __field fields pre each_item always check_fields
                        (PyBool true)) f s)
            (declare (validator' __field fields pre each_item always check_fields
                        default_False) f s))
  /\ (forall f,
       same (declare (root_validator' pre skip_on_failure (PyBool true)) f s)
            (declare (root_validator' pre skip_on_failure default_False) f s)).
Proof.
  intros notice same. unfold same, default_False.
  repeat apply conj; try intros f; run; cbn [is_True];
    destruct (isinstance_FunctionType __field), (all_str (__field :: fields)),
      (is_False pre && negb (is_True skip_on_failure));
    cbn [negb fst snd warnings next_id];
    try destruct (is_instance_method_from_sig f);
    cbn [fst snd warnings next_id];
    (repeat apply conj; try reflexivity;
     first [ exists []; split; [now rewrite app_nil_r | reflexivity]
           | eexists [_]; split; [reflexivity | now rewrite <- app_assoc] ]).
Qed.

(** C10. [model_serializer] works bare: for an instance-bound function [f],
    [model_serializer(f)] returns the marker that [model_serializer()(f)]
    returns, holding [f], a descriptor with mode ['plain'] and
    [json_return_type] None; without a function it returns its decorator;
    with one, whatever the options, it returns what the decorator does on it.
    [validator] and [field_validator] given a function in place of the first
    target raise instead. *)
Theorem model_serializer_bare (f : PyObj) (s : State)
    (Hfun : isinstance_FunctionType f = true)
    (Hf : is_instance_method_from_sig f = true) :
  let marker := mkMarker f
                  (mkObj (next_id s) (ModelSerializerDecoratorInfo (PyStr "plain") PyNone))
                  (partial "make_generic_model_serializer" [("mode", PyStr "plain")]) in
  let s' := mkState (warnings s) (S (next_id s)) in
  model_serializer' f (PyStr "plain") default_None s = (s', Return (inr marker))
  /\ (exists dec,
        model_serializer' PyNone (PyStr "plain") default_None s = (s, Return (inl dec))
        /\ dec f s = (s', Return marker))
  /\ (forall mode json_return_type,
        model_serializer' PyNone mode json_return_type s
        = (s, Return (inl (model_serializer_dec' mode json_return_type))))
  /\ (forall g mode json_return_type, is_None g = false ->
        model_serializer' g mode json_return_type s
        = (fst (model_serializer_dec' mode json_return_type g s),
           match snd (model_serializer_dec' mode json_return_type g s) with
           | Return m => Return (inr m)
           | Raise e => Raise e
           end))
  /\ (forall pre each_item always check_fields allow_reuse, exists t e,
        validator' f [] pre each_item always check_fields allow_reuse s = (t, Raise e)
        /\ exn_code e = Some "validator-no-fields")
  /\ (forall mode check_fields, exists t e,
        field_validator' f [] mode check_fields s = (t, Raise e)
        /\ exn_code e = Some "validator-no-fields").
Proof.
  intros marker s'.
  assert (Hdec : model_serializer_dec' (PyStr "plain") default_None f s
                 = (s', Return marker)).
  { run. destruct f; try discriminate. cbn. rewrite Hf. reflexivity. }
  repeat apply conj.
  - unfold model_serializer. destruct f; try discriminate.
    cbn [is_None]. unfold bind. now rewrite Hdec.
  - eexists. split; [reflexivity | exact Hdec].
  - reflexivity.
  - intros g mode jrt Hn. unfold model_serializer. rewrite Hn. unfold bind.
    destruct (model_serializer_dec' mode jrt g s) as [t [m | e]]; reflexivity.
  - intros. run. rewrite Hfun.
    destruct (is_True allow_reuse); cbn; do 2 eexists; split; reflexivity.
  - intros. run. rewrite Hfun. do 2 eexists; split; reflexivity.
Qed.

End Properties.

Lemma root_validator_skip_gate_witness :
  is_True (PyBool false) = false
  /\ sig_is_instance_method f_cls_value = false
  /\ raised (root_validator sig_is_instance_method sig_ensure_classmethod
               (PyBool false) (PyBool false) (PyBool false) initial_state) = true
  /\ raised (root_validator_dec sig_is_instance_method sig_ensure_classmethod
               (PyStr "after") (shim_function "wrap") f_cls_value initial_state) = false.
Proof.
  destruct (root_validator_skip_gate sig_is_instance_method sig_ensure_classmethod
              (PyBool false) (PyBool false) f_cls_value initial_state initial_state
              eq_refl eq_refl) as [[s1 [H1 _]] [_ [_ H4]]].
  split; [reflexivity | split; [reflexivity | split]].
  - unfold raised. rewrite H1. reflexivity.
  - unfold raised. rewrite H4. reflexivity.
Defined.

(** ** The properties at concrete declarations *)

Lemma target_validation_witness :
  (callable f_cls_value = true \/ all_str [f_cls_value] = false)
  /\ raised (validator sig_is_instance_method sig_ensure_classmethod f_cls_value []
               default_False default_False default_False default_None default_False
               initial_state) = true
  /\ raised (field_validator sig_is_instance_method sig_ensure_classmethod f_cls_value []
               (PyStr "after") default_None initial_state) = true.
Proof.
  destruct (target_validation sig_is_instance_method sig_ensure_classmethod
              f_cls_value [] default_False default_False default_False default_None
              default_False (PyStr "after") initial_state (or_introl eq_refl))
    as [(s1 & e1 & H1 & _) [(s2 & e2 & H2 & _) _]].
  split; [left; reflexivity | split].
  - unfold raised. rewrite H1. reflexivity.
  - unfold raised. rewrite H2. reflexivity.
Defined.

(** [field_serializer] handed a function as its only target raises nothing,
    and the declaration goes on to produce a marker carrying that target. *)
Lemma field_serializer_callable_target :
  callable f_cls_value = true
  /\ isinstance_str f_cls_value = false
  /\ raised (field_serializer sig_is_instance_method [f_cls_value]
            (PyStr "plain") default_None (PyStr "always") default_None
            initial_state) = false
  /\ declare (field_serializer sig_is_instance_method [f_cls_value]
                (PyStr "plain") default_None (PyStr "always") default_None)
       f_self_value initial_state
     = (mkState [] 1,
        Return (mkMarker f_self_value
                  (mkObj 0 (FieldSerializerDecoratorInfo [f_cls_value] (PyStr "plain")
                              (PyStr "field") default_None (PyStr "always") default_None))
                  (partial "make_generic_serializer"
                     [("mode", PyStr "plain"); ("type", PyStr "field")]))).
Proof. repeat split. Qed.

Lemma instance_method_rejected_witness :
  all_str [PyStr "name"] = true
  /\ is_False (PyBool false) && negb (is_True (PyBool true)) = false
  /\ sig_is_instance_method f_self_value = true
  /\ sig_is_instance_method f_cls_value = false
  /\ raised (declare (field_validator sig_is_instance_method sig_ensure_classmethod
                        (PyStr "name") [] (PyStr "after") default_None)
               f_self_value initial_state) = true
  /\ raised (declare (root_validator sig_is_instance_method sig_ensure_classmethod
                        (PyBool false) (PyBool true) default_False)
               f_cls_value initial_state) = false.
Proof.
  destruct (instance_method_rejected sig_is_instance_method sig_ensure_classmethod
              (PyStr "name") [] (PyBool false) default_False default_False default_None
              default_False (PyStr "after") (PyBool true) f_self_value f_cls_value
              initial_state eq_refl eq_refl eq_refl eq_refl)
    as (_ & (s1 & e1 & H1 & _) & _ & _ & _ & (s2 & m2 & H2)).
  do 4 (split; [reflexivity |]). split.
  - unfold raised. rewrite H1. reflexivity.
  - unfold raised. rewrite H2. reflexivity.
Defined.

Lemma model_serializer_binding_witness :
  (isinstance_staticmethod_classmethod (PyStaticMethod f_self) = true
   \/ sig_is_instance_method (PyStaticMethod f_self) = false)
  /\ isinstance_staticmethod_classmethod f_self = false
  /\ sig_is_instance_method f_self = true
  /\ raised (model_serializer_dec sig_is_instance_method (PyStr "plain") default_None
               (PyStaticMethod f_self) initial_state) = true
  /\ raised (model_serializer_dec sig_is_instance_method (PyStr "plain") default_None
               f_self initial_state) = false.
Proof.
  destruct (model_serializer_binding sig_is_instance_method (PyStr "plain") default_None
              (PyStaticMethod f_self) f_self initial_state
              (or_introl eq_refl) eq_refl eq_refl)
    as (H1 & _ & _ & H2 & _).
  split; [left; reflexivity |]. do 2 (split; [reflexivity |]). split.
  - unfold raised. rewrite H1. reflexivity.
  - unfold raised. rewrite H2. reflexivity.
Defined.

Lemma descriptor_construction_idempotent_witness :
  all_str [PyStr "age"] = true
  /\ sig_is_instance_method f_cls_value = false
  /\ (exists s' m1 m2,
      declare_twice (field_validator sig_is_instance_method sig_ensure_classmethod
                       (PyStr "age") [] (PyStr "after") default_None)
        f_cls_value initial_state
      = (s', Return (m1, m2))
      /\ val (decorator_info m1) = val (decorator_info m2)
      /\ oid (decorator_info m1) <> oid (decorator_info m2))
  /\ (exists s' m1 m2,
      declare_twice (field_serializer sig_is_instance_method [PyStr "x"]
                       (PyStr "after") default_None (PyStr "always") default_None)
        f_self_value initial_state
      = (s', Return (m1, m2))
      /\ val (decorator_info m1) = val (decorator_info m2)
      /\ info_type (val (decorator_info m1)) = Some (PyStr "field")
      /\ oid (decorator_info m1) <> oid (decorator_info m2)).
Proof.
  destruct (descriptor_construction_idempotent sig_is_instance_method sig_ensure_classmethod
              (PyStr "age") [] default_False default_False default_False default_None
              default_False (PyStr "after") default_None (PyStr "always") f_cls_value
              initial_state eq_refl eq_refl)
    as ((s' & m1 & m2 & H1 & H2 & _ & H3) & _ & Hser).
  destruct (Hser [PyStr "x"] f_self_value)
    as (t' & n1 & n2 & K1 & K2 & K3 & K4 & _).
  do 2 (split; [reflexivity |]). split.
  - exists s', m1, m2. repeat split; assumption.
  - exists t', n1, n2. repeat split; try assumption.
    rewrite K3. reflexivity.
Defined.

Lemma legacy_mode_resolution_witness :
  all_str [PyStr "name"] = true
  /\ is_False (PyBool true) && negb (is_True default_False) = false
  /\ sig_is_instance_method f_cls_value = false
  /\ exists s' m,
      declare (root_validator sig_is_instance_method sig_ensure_classmethod
                 (PyBool true) default_False default_False) f_cls_value initial_state
      = (s', Return m)
      /\ info_mode (val (decorator_info m)) = PyStr "before".
Proof.
  destruct (legacy_mode_resolution sig_is_instance_method sig_ensure_classmethod
              (PyStr "name") [] (PyBool true) default_False default_False default_None
              default_False default_False f_cls_value initial_state
              eq_refl eq_refl eq_refl)
    as (_ & (s' & m & H1 & H2) & _).
  do 3 (split; [reflexivity |]).
  exists s', m. split; assumption.
Defined.

Lemma field_serializer_instance_method_witness :
  sig_is_instance_method f_self_value = true
  /\ sig_is_instance_method f_cls_value = false
  /\ raised (declare (field_serializer sig_is_instance_method [PyStr "x"]
                        (PyStr "wrap") default_None (PyStr "always") default_None)
               f_self_value initial_state) = false.
Proof.
  destruct (field_serializer_instance_method sig_is_instance_method [PyStr "x"]
              (PyStr "wrap") default_None (PyStr "always") default_None
              f_self_value f_cls_value initial_state eq_refl eq_refl)
    as (H1 & _).
  do 2 (split; [reflexivity |]).
  unfold raised. rewrite H1. reflexivity.
Defined.

(** [field_serializer('x')] on a function whose first parameter is [self]:
    nothing is raised, a marker comes back. *)
Lemma field_serializer_takes_instance_method :
  sig_is_instance_method f_self_value = true
  /\ ~ (exists s' e,
         declare (field_serializer sig_is_instance_method [PyStr "x"]
                    (PyStr "plain") default_None (PyStr "always") default_None)
           f_self_value initial_state
         = (s', Raise e))
  /\ declare (field_serializer sig_is_instance_method [PyStr "x"]
                (PyStr "plain") default_None (PyStr "always") default_None)
       f_self_value initial_state
     = (mkState [] 1,
        Return (mkMarker f_self_value
                  (mkObj 0 (FieldSerializerDecoratorInfo [PyStr "x"] (PyStr "plain")
                              (PyStr "field") default_None (PyStr "always") default_None))
                  (partial "make_generic_serializer"
                     [("mode", PyStr "plain"); ("type", PyStr "field")]))).
Proof.
  split; [reflexivity | split; [| reflexivity]].
  intros (s' & e & H). discriminate H.
Qed.

(** [model_validator(mode='after')] on a function taking [(cls, value)],
    which is not instance-bound: nothing is raised, a marker comes back. *)
Lemma model_validator_after_takes_unbound :
  sig_is_instance_method f_cls_value = false
  /\ ~ (exists s' e,
         declare (model_validator (PyStr "after")) f_cls_value initial_state
         = (s', Raise e))
  /\ declare (model_validator (PyStr "after")) f_cls_value initial_state
     = (mkState [] 1,
        Return (mkMarker f_cls_value
                  (mkObj 0 (ModelValidatorDecoratorInfo (PyStr "after")))
                  (partial "make_generic_validator" [("mode", PyStr "after")]))).
Proof.
  split; [reflexivity | split; [| reflexivity]].
  intros (s' & e & H). discriminate H.
Qed.

Lemma model_serializer_bare_witness :
  isinstance_FunctionType f_self = true
  /\ sig_is_instance_method f_self = true
  /\ model_serializer sig_is_instance_method f_self (PyStr "plain") default_None
       initial_state
     = (mkState [] 1,
        Return (inr (mkMarker f_self
                       (mkObj 0 (ModelSerializerDecoratorInfo (PyStr "plain") PyNone))
                       (partial "make_generic_model_serializer"
                          [("mode", PyStr "plain")])))).
Proof.
  destruct (model_serializer_bare sig_is_instance_method sig_ensure_classmethod
              f_self initial_state eq_refl eq_refl) as (H1 & _).
  do 2 (split; [reflexivity |]). exact H1.
Defined.

(** ** Warnings, bookkeeping and the contents of markers *)

Section Bookkeeping.

Variable is_instance_method_from_sig : PyObj -> bool.
Variable ensure_classmethod_based_on_signature : PyObj -> PyObj.

Local Abbreviation validator' :=
  (validator is_instance_method_from_sig ensure_classmethod_based_on_signature).
Local Abbreviation field_validator' :=
  (field_validator is_instance_method_from_sig ensure_classmethod_based_on_signature).
Local Abbreviation root_validator' :=
  (root_validator is_instance_method_from_sig ensure_classmethod_based_on_signature).
Local Abbreviation field_serializer' := (field_serializer is_instance_method_from_sig).
Local Abbreviation model_serializer' := (model_serializer is_instance_method_from_sig).
Local Abbreviation model_serializer_dec' := (model_serializer_dec is_instance_method_from_sig).

Ltac by_cases :=
  repeat match goal with
         | |- context [if ?b then _ else _] => destruct b eqn:?
         | |- context [match ?b with true => _ | false => _ end] => destruct b eqn:?
         end.

(** X1. [validator] issues the allow-reuse warning when [allow_reuse] is
    True and nothing for any other value, then the V1 deprecation warning
    when the targets are all strings and not when it rejects them; applying
    the decorator issues nothing more.  The call raises exactly when some
    target is not a string. *)
Theorem validator_warnings (__field : PyObj) (fields : list PyObj)
    (pre each_item always check_fields allow_reuse f : PyObj) (s : State) :
  let reuse := if is_True allow_reuse
               then [mkWarning _ALLOW_REUSE_WARNING_MESSAGE DeprecationWarning] else [] in
  let legacy := if all_str (__field :: fields)
                then [mkWarning V1_VALIDATOR_WARNING_MESSAGE DeprecationWarning] else [] in
  let call := validator' __field fields pre each_item always check_fields allow_reuse in
  warnings (fst (call s)) = (warnings s ++ reuse ++ legacy)%list
  /\ warnings (fst (declare call f s)) = (warnings s ++ reuse ++ legacy)%list
  /\ raised (call s) = negb (all_str (__field :: fields)).
Proof.
  intros reuse legacy call. subst reuse legacy call.
  destruct (all_str (__field :: fields)) eqn:Hall.
  - pose proof (all_str_head _ _ Hall) as Hhd.
    repeat apply conj; run; rewrite Hhd, Hall; cbn [negb];
      destruct (is_True allow_reuse); cbn [fst snd warnings next_id];
      try destruct (is_instance_method_from_sig f); cbn [fst snd warnings next_id];
      rewrite <- ?app_assoc; reflexivity.
  - repeat apply conj; run; rewrite Hall; cbn [negb];
      destruct (is_True allow_reuse), (isinstance_FunctionType __field);
      cbn [fst snd warnings next_id]; rewrite ?app_nil_r; reflexivity.
Qed.

(** X2. [root_validator] issues the allow-reuse warning before it looks at
    [pre] and [skip_on_failure]: with [allow_reuse=True] the warning is
    issued whether the call then raises or returns, with any other value no
    warning is issued, and the decorator issues none. *)
Theorem root_validator_warnings (pre skip_on_failure allow_reuse f : PyObj) (s : State) :
  let reuse := if is_True allow_reuse
               then [mkWarning _ALLOW_REUSE_WARNING_MESSAGE DeprecationWarning] else [] in
  let call := root_validator' pre skip_on_failure allow_reuse in
  warnings (fst (call s)) = (warnings s ++ reuse)%list
  /\ warnings (fst (declare call f s)) = (warnings s ++ reuse)%list
  /\ raised (call s) = is_False pre && negb (is_True skip_on_failure).
Proof.
  intros reuse call. subst reuse call.
  repeat apply conj; run;
    destruct (is_True allow_reuse), (is_False pre && negb (is_True skip_on_failure));
    cbn [fst snd warnings next_id];
    try destruct (is_instance_method_from_sig f); cbn [fst snd warnings next_id];
    rewrite ?app_nil_r; reflexivity.
Qed.

(** X3. [field_validator], [field_serializer], [model_serializer] and
    [model_validator] never issue a warning, whether the declaration
    succeeds or raises. *)
Theorem current_style_never_warns (__field : PyObj) (fields : list PyObj)
    (mode check_fields json_return_type when_used f : PyObj) (s : State) :
  warnings (fst (declare (field_validator' __field fields mode check_fields) f s))
  = warnings s
  /\ warnings (fst (declare (field_serializer' fields mode json_return_type when_used
                               check_fields) f s))
     = warnings s
  /\ warnings (fst (model_serializer' f mode json_return_type s)) = warnings s
  /\ warnings (fst (declare (model_validator mode) f s)) = warnings s.
Proof.
  repeat apply conj; run; by_cases; reflexivity.
Qed.

(** X4. Every entry point constructs its descriptor last: a declaration
    that returns a marker has constructed exactly one descriptor, the one in
    the marker, and a declaration that raises has constructed none. *)
Theorem one_descriptor_per_declaration (__field : PyObj) (fields : list PyObj)
    (pre each_item always check_fields allow_reuse skip_on_failure
       mode json_return_type when_used f : PyObj) (s : State) :
  let counted (r : State * Outcome PydanticDecoratorMarker) :=
    match snd r with
    | Return m => oid (decorator_info m) = next_id s /\ next_id (fst r) = S (next_id s)
    | Raise _ => next_id (fst r) = next_id s
    end in
  counted (declare (validator' __field fields pre each_item always check_fields
                      allow_reuse) f s)
  /\ counted (declare (field_validator' __field fields mode check_fields) f s)
  /\ counted (declare (root_validator' pre skip_on_failure allow_reuse) f s)
  /\ counted (declare (field_serializer' fields mode json_return_type when_used
                         check_fields) f s)
  /\ counted (model_serializer_dec' mode json_return_type f s)
  /\ counted (declare (model_validator mode) f s).
Proof.
  intros counted. subst counted.
  repeat apply conj; run; by_cases; cbn [fst snd warnings next_id decorator_info oid];
    try split; reflexivity.
Qed.

(** X5. The shim of a marker is set up from the same values as its
    descriptor: under [field_validator], [model_validator] and
    [model_serializer] the shim fixes the mode the descriptor records; under
    [field_serializer] it fixes both the mode and the type of the descriptor;
    under [root_validator] it fixes [pre], of which the descriptor's mode is
    the legacy reading; under [validator] it is the bare V1 wrapper with no
    keyword fixed. *)
Theorem shim_matches_descriptor (__field : PyObj) (fields : list PyObj)
    (pre each_item always check_fields allow_reuse skip_on_failure
       mode json_return_type when_used f : PyObj) (s : State) :
  let recorded m := info_mode (val (decorator_info m)) in
  on_marker (fun m => shim m = shim_function "make_generic_v1_field_validator")
    (declare (validator' __field fields pre each_item always check_fields allow_reuse) f s)
  /\ on_marker (fun m => shim_name (shim m) = "make_generic_validator"
                         /\ shim_kwarg "mode" (shim m) = Some (recorded m)
                         /\ recorded m = mode)
       (declare (field_validator' __field fields mode check_fields) f s)
  /\ on_marker (fun m => shim_name (shim m) = "make_generic_validator"
                         /\ shim_kwarg "mode" (shim m) = Some (recorded m)
                         /\ recorded m = mode)
       (declare (model_validator mode) f s)
  /\ on_marker (fun m => shim_name (shim m) = "make_generic_model_serializer"
                         /\ shim_kwarg "mode" (shim m) = Some (recorded m)
                         /\ recorded m = mode)
       (model_serializer_dec' mode json_return_type f s)
  /\ on_marker (fun m => shim_name (shim m) = "make_generic_serializer"
                         /\ shim_kwarg "mode" (shim m) = Some (recorded m)
                         /\ shim_kwarg "type" (shim m) = info_type (val (decorator_info m))
                         /\ recorded m = mode)
       (declare (field_serializer' fields mode json_return_type when_used check_fields) f s)
  /\ on_marker (fun m => shim_name (shim m) = "make_v1_generic_root_validator"
                         /\ shim_kwarg "pre" (shim m) = Some pre
                         /\ recorded m = legacy_mode pre)
       (declare (root_validator' pre skip_on_failure allow_reuse) f s).
Proof.
  intros recorded. subst recorded. unfold on_marker.
  repeat apply conj; run; by_cases; cbn; repeat split.
Qed.

(** X6. What a marker wraps: the three validators [validator],
    [field_validator] and [root_validator] wrap what
    [ensure_classmethod_based_on_signature] makes of the function; the
    serializers and [model_validator] wrap the function itself, untouched. *)
Theorem wrapped_function (__field : PyObj) (fields : list PyObj)
    (pre each_item always check_fields allow_reuse skip_on_failure
       mode json_return_type when_used f : PyObj) (s : State) :
  let promoted m := wrapped m = ensure_classmethod_based_on_signature f in
  let untouched m := wrapped m = f in
  on_marker promoted
    (declare (validator' __field fields pre each_item always check_fields allow_reuse) f s)
  /\ on_marker promoted (declare (field_validator' __field fields mode check_fields) f s)
  /\ on_marker promoted (declare (root_validator' pre skip_on_failure allow_reuse) f s)
  /\ on_marker untouched
       (declare (field_serializer' fields mode json_return_type when_used check_fields) f s)
  /\ on_marker untouched (model_serializer_dec' mode json_return_type f s)
  /\ on_marker untouched (declare (model_validator mode) f s).
Proof.
  intros promoted untouched. subst promoted untouched. unfold on_marker.
  repeat apply conj; run; by_cases; cbn; trivial.
Qed.

(** X7. The [skip_on_failure] gate of [root_validator] compares [pre] with
    False by identity: a [pre] that is some other object, None or 0 say, is
    let through whatever [skip_on_failure] is, and when it is not True
    either, the declaration runs in mode ['after'] with that [pre] handed to
    the shim. *)
Theorem root_validator_gate_by_identity (pre skip_on_failure allow_reuse f : PyObj)
    (s : State)
    (Hfalse : pre <> PyBool false)
    (Htrue : pre <> PyBool true)
    (Hf : is_instance_method_from_sig f = false) :
  raised (root_validator' pre skip_on_failure allow_reuse s) = false
  /\ exists s' m,
       declare (root_validator' pre skip_on_failure allow_reuse) f s = (s', Return m)
       /\ info_mode (val (decorator_info m)) = PyStr "after"
       /\ shim m = partial "make_v1_generic_root_validator" [("pre", pre)].
Proof.
  assert (H1 : is_False pre = false).
  { destruct pre as [| [|] | | | | | |]; try reflexivity. now contradict Hfalse. }
  assert (H2 : legacy_mode pre = PyStr "after") by now apply legacy_mode_after.
  split.
  - run. rewrite H1. destruct (is_True allow_reuse); reflexivity.
  - run. rewrite H1. cbn [andb].
    destruct (is_True allow_reuse); cbn [fst snd]; rewrite Hf, H2;
      do 2 eexists; repeat split.
Qed.

(** X8. The legacy [validator] and [field_validator] given the mode that
    [pre] stands for decide alike: on the same targets and function both
    raise, with the same error code, or both return a marker, and the two
    markers wrap the same object and list the same targets, mode and
    [check_fields]. *)
Theorem validator_agrees_with_field_validator (__field : PyObj) (fields : list PyObj)
    (pre each_item always check_fields allow_reuse f : PyObj) (s : State) :
  match snd (declare (validator' __field fields pre each_item always check_fields
                        allow_reuse) f s),
        snd (declare (field_validator' __field fields (legacy_mode pre) check_fields) f s)
  with
  | Return m1, Return m2 =>
      wrapped m1 = wrapped m2
      /\ info_fields (val (decorator_info m1)) = info_fields (val (decorator_info m2))
      /\ info_mode (val (decorator_info m1)) = info_mode (val (decorator_info m2))
      /\ info_check_fields (val (decorator_info m1))
         = info_check_fields (val (decorator_info m2))
  | Raise e1, Raise e2 => exn_code e1 = exn_code e2
  | _, _ => False
  end.
Proof.
  run.
  destruct (is_True allow_reuse), (isinstance_FunctionType __field),
    (all_str (__field :: fields)); cbn [negb fst snd];
    try destruct (is_instance_method_from_sig f); cbn; repeat split.
Qed.

End Bookkeeping.

Lemma root_validator_gate_by_identity_witness :
  PyNone <> PyBool false
  /\ PyNone <> PyBool true
  /\ sig_is_instance_method f_cls_value = false
  /\ raised (root_validator sig_is_instance_method sig_ensure_classmethod
               PyNone default_False default_False initial_state) = false.
Proof.
  assert (H1 : PyNone <> PyBool false) by discriminate.
  assert (H2 : PyNone <> PyBool true) by discriminate.
  destruct (root_validator_gate_by_identity sig_is_instance_method sig_ensure_classmethod
              PyNone default_False default_False f_cls_value initial_state
              H1 H2 eq_refl) as (H & _).
  repeat (split; [assumption || reflexivity |]). exact H.
Defined.

Section Precedence.

Variable is_instance_method_from_sig : PyObj -> bool.
Variable ensure_classmethod_based_on_signature : PyObj -> PyObj.

(** X9. Targets are checked when the entry point is called, before there is
    a decorator: a [validator] or [field_validator] declaration with a target
    that is not a string fails with the target error of the call whatever it
    is applied to, an instance-bound function included, and the two entry
    points fail with the same code. *)
Theorem target_error_comes_first (__field : PyObj) (fields : list PyObj)
    (pre each_item always check_fields allow_reuse mode f : PyObj) (s : State)
    (Hbad : all_str (__field :: fields) = false) :
  let call := validator is_instance_method_from_sig ensure_classmethod_based_on_signature
                __field fields pre each_item always check_fields allow_reuse in
  let call' := field_validator is_instance_method_from_sig
                 ensure_classmethod_based_on_signature __field fields mode check_fields in
  exists e e',
    snd (call s) = Raise e
    /\ declare call f s = (fst (call s), Raise e)
    /\ snd (call' s) = Raise e'
    /\ declare call' f s = (s, Raise e')
    /\ exn_code e = exn_code e'
    /\ exn_code e <> Some "validator-instance-method".
Proof.
  intros call call'. subst call call'. run. rewrite Hbad. cbn [negb].
  destruct (is_True allow_reuse), (isinstance_FunctionType __field);
    cbn [fst snd]; do 2 eexists; repeat split; discriminate.
Qed.

End Precedence.

Lemma target_error_comes_first_witness :
  all_str [PyStr "a"; PyInt 3] = false
  /\ exists e,
      declare (field_validator sig_is_instance_method sig_ensure_classmethod
                 (PyStr "a") [PyInt 3] (PyStr "after") default_None)
        f_self_value initial_state
      = (initial_state, Raise e)
      /\ exn_code e = Some "validator-invalid-fields".
Proof.
  destruct (target_error_comes_first sig_is_instance_method sig_ensure_classmethod
              (PyStr "a") [PyInt 3] default_False default_False default_False
              default_None default_False (PyStr "after") f_self_value initial_state
              eq_refl) as (e & e' & _ & _ & H3 & H4 & _).
  split; [reflexivity |].
  exists e'. split; [exact H4 |].
  cbv in H3. injection H3 as <-. reflexivity.
Defined.
